(** * The BGE-M3 embedding server ([bge-server/server.py])

    A shallow embedding of the two Flask handlers [embed] and
    [embed_single] and of the start-up block: the Python values they
    inspect, the built-ins they call, the exceptions those raise, and the
    code itself, written in a small reader/writer/error monad so that each
    line of the source has a line here.

    What the file imports, and the interpreter's [int] on strings, are
    inputs of the embedding:
    - [request.get_json()] is given by its outcome on the request at hand
      (a parsed value, [None], or an exception raised by the framework);
    - [os.environ] is a finite map from names to strings;
    - [model.encode] is a function that returns the model's result
      dictionary or raises;
    - [int(s)] on a [str] is a function that gives the integer or the
      message of the [ValueError].
    Everything the code does to a collaborator is recorded in a trace of
    events, which is how "the model is (not) invoked" is stated. *)

From stdpp Require Import base strings gmap list pretty.
From Stdlib Require Import Ascii ZArith Lia.

Local Open Scope Z_scope.

(** ** Python values *)

(** A Python [float]: the finite value [mantissa * 2^exponent], an
    infinity, or NaN. *)
Inductive pyfloat :=
| FNum (mantissa exponent : Z)
| FInf (negative : bool)
| FNaN.

(** The values [json.loads] produces, which are also the values [jsonify]
    serialises. *)
#[warnings="-register-all"]
Inductive pyval :=
| PNone
| PBool (b : bool)
| PInt (z : Z)
| PFloat (f : pyfloat)
| PStr (s : string)
| PList (l : list pyval)
| PDict (d : gmap string pyval).

(** [type(v).__name__] *)
Definition type_name (v : pyval) : string :=
  match v with
  | PNone => "NoneType"
  | PBool _ => "bool"
  | PInt _ => "int"
  | PFloat _ => "float"
  | PStr _ => "str"
  | PList _ => "list"
  | PDict _ => "dict"
  end.

(** [bool(v)], the test behind [not data]. *)
Definition truthy (v : pyval) : bool :=
  match v with
  | PNone => false
  | PBool b => b
  | PInt z => negb (z =? 0)
  | PFloat (FNum m _) => negb (m =? 0)
  | PFloat _ => true
  | PStr s => negb (Nat.eqb (String.length s) 0)
  | PList l => negb (Nat.eqb (length l) 0)
  | PDict d => negb (Nat.eqb (size d) 0)
  end.

(** [isinstance(v, list)] and [isinstance(v, str)] *)
Definition is_list (v : pyval) : bool :=
  match v with PList _ => true | _ => false end.

Definition is_str (v : pyval) : bool :=
  match v with PStr _ => true | _ => false end.

(** ** Strings *)

(** [needle in hay] for two [str]: the substring test. *)
Fixpoint str_contains (needle hay : string) : bool :=
  String.prefix needle hay ||
  match hay with
  | EmptyString => false
  | String _ hay' => str_contains needle hay'
  end.

(** A string occurs inside another one. *)
Definition occurs_in (needle hay : string) : Prop :=
  ∃ before after, hay = before +:+ needle +:+ after.

(** ** Exceptions, events, and the handler monad *)

(** What a [raise] carries, with its class name and [str(e)]: an instance
    of [Exception], or an instance of [BaseException] that is not one
    ([SystemExit], [KeyboardInterrupt], [GeneratorExit]). *)
Inductive exn :=
| Exception (class message : string)
| BaseException (class message : string).

(** [str(e)] *)
Definition exn_str (e : exn) : string :=
  match e with Exception _ m | BaseException _ m => m end.

(** [isinstance(e, Exception)] *)
Definition is_Exception (e : exn) : bool :=
  match e with Exception _ _ => true | BaseException _ _ => false end.

(** A call either returns or raises. *)
Inductive result (A : Type) :=
| Returns (a : A)
| Raises (e : exn).
Arguments Returns {A} a.
Arguments Raises {A} e.

(** A dense vector, and a two-dimensional array as the list of its rows. *)
Abbreviation vector := (list pyfloat).
Abbreviation ndarray := (list vector).

Inductive log_level := INFO | ERROR.

(** What a handler does to the outside world, in order. *)
Inductive event :=
| EvGetJson
| EvEnvironGet (name : string)
| EvLog (level : log_level) (msg : string)
| EvEncode (sentences : list pyval) (batch_size : option nat) (max_length : nat).

(** What the code runs against: the loaded model, the process
    environment, what [request.get_json()] does on this request, and the
    interpreter's [int] on a [str], which gives the integer or the
    message of the [ValueError] it raises. [batch_size = None] is a call
    that leaves [batch_size] to the model's default. *)
Record world := World {
  model_encode : list pyval → option nat → nat → result (gmap string ndarray);
  os_environ : gmap string string;
  request_get_json : result pyval;
  builtin_int : string → Z + string;
}.

(** A computation reads the world, appends to the trace, and returns or
    raises. *)
Definition M (A : Type) : Type := world → result A * list event.

Definition ret {A} (a : A) : M A := λ _, (Returns a, []).

Definition bind {A B} (m : M A) (k : A → M B) : M B := λ w,
  match m w with
  | (Returns a, t) => let '(r, t') := k a w in (r, t ++ t')
  | (Raises e, t) => (Raises e, t)
  end.

Definition raise {A} (e : exn) : M A := λ _, (Raises e, []).

(** [try: m except Exception as e: h e]: an exception that is not an
    instance of [Exception] passes through. *)
Definition try_except {A} (m : M A) (h : exn → M A) : M A := λ w,
  match m w with
  | (Returns a, t) => (Returns a, t)
  | (Raises e, t) =>
      if is_Exception e then let '(r, t') := h e w in (r, t ++ t')
      else (Raises e, t)
  end.

(** Perform the call recorded as [ev], whose outcome in world [w] is
    [f w]. *)
Definition call {A} (ev : event) (f : world → result A) : M A := λ w, (f w, [ev]).

#[global] Instance M_ret : MRet M := @ret.
#[global] Instance M_bind : MBind M := λ A B k m, bind m k.

(** ** The built-ins and collaborators the handlers call *)

Definition TypeError {A} (msg : string) : M A := raise (Exception "TypeError" msg).
Definition ValueError {A} (msg : string) : M A := raise (Exception "ValueError" msg).
Definition IndexError {A} (msg : string) : M A := raise (Exception "IndexError" msg).
Definition OverflowError {A} (msg : string) : M A := raise (Exception "OverflowError" msg).
Definition AttributeError {A} (msg : string) : M A := raise (Exception "AttributeError" msg).

(** [KeyError(key)] for one of the literal keys of the source, which are
    plain words: [str(e)] is the key between single quotes. *)
Definition KeyError {A} (key : string) : M A :=
  raise (Exception "KeyError" ("'" +:+ key +:+ "'")).

(** [key in container], for a [str] key. *)
Definition py_in (key : string) (container : pyval) : M bool :=
  match container with
  | PDict d => ret (bool_decide (is_Some (d !! key)))
  | PList l => ret (existsb (λ v, match v with PStr s => String.eqb key s | _ => false end) l)
  | PStr s => ret (str_contains key s)
  | v => TypeError ("argument of type '" +:+ type_name v +:+ "' is not iterable")
  end.

(** [container[key]], for a [str] key. *)
Definition py_getitem (container : pyval) (key : string) : M pyval :=
  match container with
  | PDict d => match d !! key with Some v => ret v | None => KeyError key end
  | PList _ => TypeError "list indices must be integers or slices, not str"
  | PStr _ => TypeError "string indices must be integers, not 'str'"
  | v => TypeError ("'" +:+ type_name v +:+ "' object is not subscriptable")
  end.

(** [int(v)]; on a [str] the interpreter decides. *)
Definition py_int (v : pyval) : M Z :=
  match v with
  | PInt z => ret z
  | PBool b => ret (if b then 1 else 0)
  | PFloat (FNum m e) => ret (if 0 <=? e then m * 2 ^ e else Z.quot m (2 ^ (- e)))
  | PFloat (FInf _) => OverflowError "cannot convert float infinity to integer"
  | PFloat FNaN => ValueError "cannot convert float NaN to integer"
  | PStr s => λ w,
      match builtin_int w s with
      | inl z => ret z w
      | inr msg => ValueError msg w
      end
  | v => TypeError ("int() argument must be a string, a bytes-like object or a real number, not '"
                    +:+ type_name v +:+ "'")
  end.

(** [request.get_json()] *)
Definition get_json : M pyval := call EvGetJson request_get_json.

(** [os.environ.get(name, default)] *)
Definition environ_get (name : string) (default : pyval) : M pyval :=
  call (EvEnvironGet name)
       (λ w, Returns (match os_environ w !! name with Some s => PStr s | None => default end)).

(** [model.encode(sentences, batch_size=..., max_length=...)] *)
Definition encode (sentences : list pyval) (batch_size : option nat) (max_length : nat)
  : M (gmap string ndarray) :=
  call (EvEncode sentences batch_size max_length)
       (λ w, model_encode w sentences batch_size max_length).

(** [result[key]] on the model's result dictionary. *)
Definition result_getitem (res : gmap string ndarray) (key : string) : M ndarray :=
  match res !! key with Some a => ret a | None => KeyError key end.

(** [a[0]] on an array. *)
Definition array_first (a : ndarray) : M vector :=
  match a with
  | v :: _ => ret v
  | [] => IndexError "index 0 is out of bounds for axis 0 with size 0"
  end.

(** [.tolist()] on a row and on an array. *)
Definition tolist_1d (v : vector) : pyval := PList (PFloat <$> v).
Definition tolist_2d (a : ndarray) : pyval := PList (tolist_1d <$> a).

Definition logger_info (msg : string) : M unit := call (EvLog INFO msg) (λ _, Returns tt).
Definition logger_error (msg : string) : M unit := call (EvLog ERROR msg) (λ _, Returns tt).

(** ** Responses *)

Record response := Response { body : pyval; status : nat }.

(** [jsonify(v)] answers with status 200; [return jsonify(v), code]
    overrides the status. *)
Definition jsonify (v : pyval) : response := Response v 200.
Definition with_status (r : response) (code : nat) : response := Response (body r) code.

Definition error_body (msg : string) : pyval := PDict {[ "error" := PStr msg ]}.

(** ** The handlers *)

Definition DEFAULT_MAX_BATCH_SIZE : Z := 32.
Definition MAX_LENGTH : nat := 512.

(** The body of [embed]'s [try] block. *)
Definition embed_body : M response :=
  data ← get_json;
  missing ← (if negb (truthy data) then ret true
             else present ← py_in "texts" data ; ret (negb present));
  if missing : bool then ret (with_status (jsonify (error_body "Missing 'texts' field")) 400)
  else
  texts ← py_getitem data "texts";
  match texts with
  | PList l =>
      if Nat.eqb (length l) 0 then ret (jsonify (PDict {[ "embeddings" := PList [] ]}))
      else
      raw ← environ_get "MAX_BATCH_SIZE" (PInt DEFAULT_MAX_BATCH_SIZE);
      max_batch ← py_int raw;
      if max_batch <? Z.of_nat (length l) then
        ret (with_status
               (jsonify (error_body ("Batch size " +:+ pretty (length l)
                                     +:+ " exceeds maximum " +:+ pretty max_batch)))
               400)
      else
      logger_info ("Generating embeddings for " +:+ pretty (length l) +:+ " texts");;
      result ← encode l (Some (Nat.min (length l) 8)) MAX_LENGTH;
      dense ← result_getitem result "dense_vecs";
      ret (jsonify (PDict {[ "embeddings" := tolist_2d dense ]}))
  | _ => ret (with_status (jsonify (error_body "'texts' must be a list")) 400)
  end.

(** [POST /embed] *)
Definition embed : M response :=
  try_except embed_body (λ e,
    logger_error ("Error generating embeddings: " +:+ exn_str e);;
    ret (with_status (jsonify (error_body (exn_str e))) 500)).

(** The body of [embed_single]'s [try] block. *)
Definition embed_single_body : M response :=
  data ← get_json;
  missing ← (if negb (truthy data) then ret true
             else present ← py_in "text" data ; ret (negb present));
  if missing : bool then ret (with_status (jsonify (error_body "Missing 'text' field")) 400)
  else
  text ← py_getitem data "text";
  if negb (is_str text) then ret (with_status (jsonify (error_body "'text' must be a string")) 400)
  else
  result ← encode [text] None MAX_LENGTH;
  dense ← result_getitem result "dense_vecs";
  first ← array_first dense;
  ret (jsonify (PDict {[ "embedding" := tolist_1d first ]})).

(** [POST /embed/single] *)
Definition embed_single : M response :=
  try_except embed_single_body (λ e,
    logger_error ("Error generating embedding: " +:+ exn_str e);;
    ret (with_status (jsonify (error_body (exn_str e))) 500)).

(** [GET /health] *)
Definition health : M response := ret (jsonify (PDict {[ "status" := PStr "ok" ]})).

(** ** Startup *)

(** [c.lower()] and [s.lower()] on ASCII letters. *)
Definition ascii_lower (a : ascii) : ascii :=
  let n := nat_of_ascii a in
  if Nat.leb 65 n && Nat.leb n 90 then ascii_of_nat (n + 32) else a.

Fixpoint str_lower (s : string) : string :=
  match s with
  | EmptyString => EmptyString
  | String a s' => String (ascii_lower a) (str_lower s')
  end.

(** [v.lower()] *)
Definition py_lower (v : pyval) : M string :=
  match v with
  | PStr s => ret (str_lower s)
  | v => AttributeError ("'" +:+ type_name v +:+ "' object has no attribute 'lower'")
  end.

Definition DEFAULT_PORT : Z := 8080.

(** The arguments of [app.run(host=..., port=..., debug=...)]. *)
Record run_args := RunArgs { run_host : string; run_port : Z; run_debug : bool }.

(** The [if __name__ == "__main__":] block, up to the call of [app.run],
    whose arguments it returns. Nothing here is inside a [try]. *)
Definition main : M run_args :=
  raw ← environ_get "PORT" (PInt DEFAULT_PORT);
  port ← py_int raw;
  flag ← environ_get "DEBUG" (PStr "false");
  lowered ← py_lower flag;
  let debug := String.eqb lowered "true" in
  logger_info ("Starting server on port " +:+ pretty port);;
  ret (RunArgs "0.0.0.0" port debug).

(** ** Reading a run *)

(** The limit [int(os.environ.get("MAX_BATCH_SIZE", 32))] yields in a
    world, when the conversion succeeds. *)
Definition max_batch_size (w : world) : option Z :=
  match os_environ w !! "MAX_BATCH_SIZE" with
  | Some s => match builtin_int w s with inl z => Some z | inr _ => None end
  | None => Some DEFAULT_MAX_BATCH_SIZE
  end.

Definition is_encode (ev : event) : bool :=
  match ev with EvEncode _ _ _ => true | _ => false end.

Definition is_environ_get (ev : event) : bool :=
  match ev with EvEnvironGet _ => true | _ => false end.

(** The calls to [model.encode] in a trace, in order. *)
Definition model_calls (t : list event) : list event := List.filter is_encode t.

(** The reads of [os.environ] in a trace, in order. *)
Definition environ_reads (t : list event) : list event := List.filter is_environ_get t.

(** The [logger.error] calls in a trace, in order. *)
Definition is_error_log (ev : event) : bool :=
  match ev with EvLog ERROR _ => true | _ => false end.

Definition error_logs (t : list event) : list event := List.filter is_error_log t.

(** The sixteen spellings of "true" in upper and lower case. *)
Definition spells_true (s : string) : Prop :=
  ∃ a b c d, s = String a (String b (String c (String d EmptyString))) ∧
    (a = "t" ∨ a = "T")%char ∧ (b = "r" ∨ b = "R")%char ∧
    (c = "u" ∨ c = "U")%char ∧ (d = "e" ∨ d = "E")%char.

(** What the [except Exception as e] clause of a handler leaves behind
    when [e] was raised after the events [before]; [prefix] is the
    handler's log message. *)
Definition caught (prefix : string) (e : exn) (before : list event)
  : result response * list event :=
  (Returns (with_status (jsonify (error_body (exn_str e))) 500),
   before ++ [EvLog ERROR (prefix +:+ exn_str e)]).

(** ** Sample worlds *)

(** A model that answers every sentence with the one-component vector of
    its length, and raises on a sentence that is not a [str]. *)
Definition length_vector (v : pyval) : option vector :=
  match v with
  | PStr s => Some [FNum (Z.of_nat (String.length s)) 0]
  | _ => None
  end.

Definition sample_encode (sentences : list pyval) (batch_size : option nat) (max_length : nat)
  : result (gmap string ndarray) :=
  match mapM length_vector sentences with
  | Some rows => Returns {[ "dense_vecs" := rows ]}
  | None => Raises (Exception "TypeError" "sentences must be str")
  end.

(** A model that answers any batch with a single row. *)
Definition one_row_encode (sentences : list pyval) (batch_size : option nat) (max_length : nat)
  : result (gmap string ndarray) :=
  Returns {[ "dense_vecs" := [[FNum 0 0]] ]}.

(** A model whose result has no "dense_vecs". *)
Definition sparse_only_encode (sentences : list pyval) (batch_size : option nat)
    (max_length : nat) : result (gmap string ndarray) :=
  Returns {[ "colbert_vecs" := [] ]}.

(** A model inside which [sys.exit(1)] is called. *)
Definition exiting_encode (sentences : list pyval) (batch_size : option nat)
    (max_length : nat) : result (gmap string ndarray) :=
  Raises (BaseException "SystemExit" "1").

Definition is_digit (a : ascii) : bool :=
  let n := nat_of_ascii a in Nat.leb 48 n && Nat.leb n 57.

Fixpoint digits_value (acc : Z) (l : list ascii) : option Z :=
  match l with
  | [] => Some acc
  | a :: l' =>
      if is_digit a then digits_value (10 * acc + Z.of_nat (nat_of_ascii a - 48)) l'
      else None
  end.

(** The [int] of the sample worlds. It reads a run of ASCII digits with
    an optional minus sign in front, and refuses every other string the
    way the interpreter refuses a short word of letters. *)
Definition sample_int (s : string) : Z + string :=
  let refused := inr ("invalid literal for int() with base 10: '" +:+ s +:+ "'") in
  match String.list_ascii_of_string s with
  | [] => refused
  | a :: l =>
      if Ascii.eqb a "-" then
        match l, digits_value 0 l with
        | _ :: _, Some z => inl (- z)
        | _, _ => refused
        end
      else
        match digits_value 0 (a :: l) with
        | Some z => inl z
        | None => refused
        end
  end.

Definition texts_request (texts : pyval) : result pyval :=
  Returns (PDict {[ "texts" := texts ]}).

Definition text_request (text : pyval) : result pyval :=
  Returns (PDict {[ "text" := text ]}).

(** A world with the given model, and the sample [int]. *)
Definition world_of (enc : list pyval → option nat → nat → result (gmap string ndarray))
    (env : gmap string string) (req : result pyval) : world :=
  World enc env req sample_int.

Definition sample_world (env : gmap string string) (req : result pyval) : world :=
  world_of sample_encode env req.

(** The world at startup: no request is at hand. *)
Definition startup_world (env : gmap string string) : world :=
  world_of sample_encode env (Returns PNone).

Definition two_texts : list pyval := [PStr "a"; PStr "bcd"].
Definition two_rows : ndarray := [[FNum 1 0]; [FNum 3 0]].
Definition mixed_texts : list pyval := [PInt 1; PNone; PDict ∅].

(** * Properties *)

(** ** Strings *)

Lemma append_cons a (s t : string) : String a s +:+ t = String a (s +:+ t).
Proof. reflexivity. Qed.

Lemma append_empty_r (s : string) : s +:+ EmptyString = s.
Proof. induction s as [|a s IH]; [done|]. by rewrite append_cons, IH. Qed.

Lemma append_assoc (s t u : string) : (s +:+ t) +:+ u = s +:+ t +:+ u.
Proof. induction s as [|a s IH]; [done|]. by rewrite !append_cons, IH. Qed.

Lemma occurs_in_middle (before needle after : string) :
  occurs_in needle (before +:+ needle +:+ after).
Proof. by exists before, after. Qed.

Lemma occurs_in_end (before needle : string) : occurs_in needle (before +:+ needle).
Proof. exists before, EmptyString. by rewrite append_empty_r. Qed.

(** ** Running the handlers, path by path *)

Lemma dict_truthy (d : gmap string pyval) k v : d !! k = Some v → truthy (PDict d) = true.
Proof.
  intros H. simpl. destruct (size d) eqn:E; [|done].
  apply map_size_empty_iff in E. subst. by rewrite lookup_empty in H.
Qed.

Lemma nonempty_length {A} (l : list A) : l ≠ [] → Nat.eqb (length l) 0 = false.
Proof. by destruct l. Qed.

Lemma max_batch_size_int w s m :
  os_environ w !! "MAX_BATCH_SIZE" = Some s → max_batch_size w = Some m →
  builtin_int w s = inl m.
Proof.
  unfold max_batch_size. intros ->. destruct (builtin_int w s); congruence.
Qed.

Local Arguments String.eqb : simpl never.
Local Arguments str_contains : simpl never.
Local Arguments String.append : simpl never.
Local Arguments truthy : simpl never.
Local Arguments pretty : simpl never.

Ltac unfold_run :=
  unfold embed, embed_single, embed_body, embed_single_body, try_except,
    mbind, M_bind, bind, ret, get_json, environ_get, encode, call,
    logger_info, logger_error, result_getitem, array_first, py_in, py_getitem, py_int,
    TypeError, ValueError, KeyError, IndexError, OverflowError, raise, caught.

(** Entering a handler with a JSON object that has the field. *)
Ltac enter Hreq Hd :=
  unfold_run; rewrite Hreq, (dict_truthy _ _ _ Hd); simpl; rewrite Hd; simpl.

Lemma embed_run_not_list w d v :
  request_get_json w = Returns (PDict d) → d !! "texts" = Some v → is_list v = false →
  embed w = (Returns (with_status (jsonify (error_body "'texts' must be a list")) 400),
             [EvGetJson]).
Proof. intros Hreq Hd Hv. enter Hreq Hd. by destruct v. Qed.

Lemma embed_run_empty w d :
  request_get_json w = Returns (PDict d) → d !! "texts" = Some (PList []) →
  embed w = (Returns (jsonify (PDict {[ "embeddings" := PList [] ]})), [EvGetJson]).
Proof. intros Hreq Hd. by enter Hreq Hd. Qed.

Lemma embed_run_bad_limit w d l s msg :
  request_get_json w = Returns (PDict d) → d !! "texts" = Some (PList l) → l ≠ [] →
  os_environ w !! "MAX_BATCH_SIZE" = Some s → builtin_int w s = inr msg →
  embed w = caught "Error generating embeddings: " (Exception "ValueError" msg)
              [EvGetJson; EvEnvironGet "MAX_BATCH_SIZE"].
Proof.
  intros Hreq Hd Hl Henv Hint. enter Hreq Hd.
  by rewrite (nonempty_length _ Hl), Henv, Hint.
Qed.

Lemma embed_run_limit w d l m :
  request_get_json w = Returns (PDict d) → d !! "texts" = Some (PList l) → l ≠ [] →
  max_batch_size w = Some m →
  embed w =
    if m <? Z.of_nat (length l) then
      (Returns (with_status
                  (jsonify (error_body ("Batch size " +:+ pretty (length l)
                                        +:+ " exceeds maximum " +:+ pretty m))) 400),
       [EvGetJson; EvEnvironGet "MAX_BATCH_SIZE"])
    else
      let before := [EvGetJson; EvEnvironGet "MAX_BATCH_SIZE";
                     EvLog INFO ("Generating embeddings for " +:+ pretty (length l) +:+ " texts");
                     EvEncode l (Some (Nat.min (length l) 8)) MAX_LENGTH] in
      match model_encode w l (Some (Nat.min (length l) 8)) MAX_LENGTH with
      | Returns res =>
          match res !! "dense_vecs" with
          | Some dense => (Returns (jsonify (PDict {[ "embeddings" := tolist_2d dense ]})), before)
          | None => caught "Error generating embeddings: "
                      (Exception "KeyError" "'dense_vecs'") before
          end
      | Raises e =>
          if is_Exception e then caught "Error generating embeddings: " e before
          else (Raises e, before)
      end.
Proof.
  intros Hreq Hd Hl Hmax. unfold max_batch_size in Hmax. enter Hreq Hd.
  rewrite (nonempty_length _ Hl).
  destruct (os_environ w !! "MAX_BATCH_SIZE") as [s|];
    [destruct (builtin_int w s) as [z|msg]; [|done] | ]; injection Hmax as <-; simpl.
  all: destruct (_ <? _); [done|]; simpl.
  all: destruct (model_encode w l _ _) as [res|e]; [|by destruct e].
  all: by destruct (res !! "dense_vecs").
Qed.

Lemma embed_single_run_not_str w d v :
  request_get_json w = Returns (PDict d) → d !! "text" = Some v → is_str v = false →
  embed_single w = (Returns (with_status (jsonify (error_body "'text' must be a string")) 400),
                    [EvGetJson]).
Proof. intros Hreq Hd Hv. enter Hreq Hd. by rewrite Hv. Qed.

Lemma embed_single_run_str w d s :
  request_get_json w = Returns (PDict d) → d !! "text" = Some (PStr s) →
  embed_single w =
    let before := [EvGetJson; EvEncode [PStr s] None MAX_LENGTH] in
    match model_encode w [PStr s] None MAX_LENGTH with
    | Returns res =>
        match res !! "dense_vecs" with
        | Some (v :: _) => (Returns (jsonify (PDict {[ "embedding" := tolist_1d v ]})), before)
        | Some [] => caught "Error generating embedding: "
                       (Exception "IndexError" "index 0 is out of bounds for axis 0 with size 0")
                       before
        | None => caught "Error generating embedding: "
                    (Exception "KeyError" "'dense_vecs'") before
        end
    | Raises e =>
        if is_Exception e then caught "Error generating embedding: " e before
        else (Raises e, before)
    end.
Proof.
  intros Hreq Hd. enter Hreq Hd.
  destruct (model_encode w _ _ _) as [res|e]; [|by destruct e].
  destruct (res !! "dense_vecs") as [[|v rows]|]; done.
Qed.

(** ** The batch endpoint *)

(** C1. A request whose body is an object with a non-empty list of strings
    under "texts", no longer than the configured limit, is answered 200
    with an "embeddings" list of the same length whose position [i] is the
    model's vector for position [i], written out as a list of floats,
    provided the model answers with one vector per text. *)
Theorem embed_batch_in_order w d l m res dense :
  request_get_json w = Returns (PDict d) →
  d !! "texts" = Some (PList l) →
  Forall (λ v, is_str v = true) l →
  l ≠ [] →
  max_batch_size w = Some m →
  Z.of_nat (length l) ≤ m →
  model_encode w l (Some (Nat.min (length l) 8)) MAX_LENGTH = Returns res →
  res !! "dense_vecs" = Some dense →
  length dense = length l →
  ∃ out,
    fst (embed w) = Returns (Response (PDict {[ "embeddings" := PList out ]}) 200) ∧
    length out = length l ∧
    ∀ i, out !! i = (λ row, PList (PFloat <$> row)) <$> (dense !! i).
Proof.
  intros Hreq Hd _ Hl Hmax Hle Henc Hres Hlen.
  rewrite (embed_run_limit w d l m Hreq Hd Hl Hmax).
  assert ((m <? Z.of_nat (length l)) = false) as -> by lia.
  cbv zeta. rewrite Henc, Hres. exists (tolist_1d <$> dense). split_and!.
  - done.
  - by rewrite length_fmap.
  - intros i. by rewrite list_lookup_fmap.
Qed.

Lemma embed_batch_in_order_witness :
  fst (embed (sample_world ∅ (texts_request (PList two_texts))))
  = Returns (Response (PDict {[ "embeddings" :=
      PList [PList [PFloat (FNum 1 0)]; PList [PFloat (FNum 3 0)]] ]}) 200).
Proof.
  destruct (embed_batch_in_order (sample_world ∅ (texts_request (PList two_texts)))
              {[ "texts" := PList two_texts ]} two_texts 32
              {[ "dense_vecs" := two_rows ]} two_rows) as (out & Hout & Hlen & Hrows).
  - reflexivity.
  - reflexivity.
  - repeat constructor.
  - discriminate.
  - reflexivity.
  - vm_compute. discriminate.
  - reflexivity.
  - reflexivity.
  - reflexivity.
  - rewrite Hout. pose proof (Hrows 0%nat) as H0. pose proof (Hrows 1%nat) as H1.
    destruct out as [|a [|b [|c out]]]; try discriminate Hlen.
    injection H0 as ->. injection H1 as ->. reflexivity.
Defined.

(** C2. On a body that is the JSON number 5, which parses and has no
    "texts" field, ["texts" in 5] raises inside the guard and the answer
    is 500 with the interpreter's message, not the 400 for a missing
    field that the bodies 0, false and null receive. *)
Theorem embed_number_body_is_500 :
  fst (embed (sample_world ∅ (Returns (PInt 5))))
    = Returns (Response (error_body "argument of type 'int' is not iterable") 500)
  ∧ fst (embed (sample_world ∅ (Returns (PInt 5))))
    ≠ Returns (Response (error_body "Missing 'texts' field") 400)
  ∧ fst (embed (sample_world ∅ (Returns (PInt 0))))
    = Returns (Response (error_body "Missing 'texts' field") 400).
Proof. split_and!; [reflexivity | discriminate | reflexivity]. Qed.

(** C3, as amended. A non-empty list longer than the configured limit is
    answered 400 with a message that contains the length of the list and
    the limit, and the model is not called. *)
Theorem embed_batch_too_large w d l m :
  request_get_json w = Returns (PDict d) →
  d !! "texts" = Some (PList l) →
  l ≠ [] →
  max_batch_size w = Some m →
  m < Z.of_nat (length l) →
  ∃ msg,
    fst (embed w) = Returns (Response (error_body msg) 400) ∧
    occurs_in (pretty (length l)) msg ∧
    occurs_in (pretty m) msg ∧
    model_calls (snd (embed w)) = [].
Proof.
  intros Hreq Hd Hl Hmax Hlt.
  rewrite (embed_run_limit w d l m Hreq Hd Hl Hmax).
  assert ((m <? Z.of_nat (length l)) = true) as -> by lia.
  eexists. split_and!; [done | | | done].
  - apply occurs_in_middle.
  - rewrite <- (append_assoc _ " exceeds maximum "), <- append_assoc.
    apply occurs_in_end.
Qed.

Lemma embed_batch_too_large_witness :
  ∃ msg,
    fst (embed (sample_world {[ "MAX_BATCH_SIZE" := "1" ]} (texts_request (PList two_texts))))
      = Returns (Response (error_body msg) 400) ∧
    occurs_in (pretty (length two_texts)) msg ∧
    occurs_in (pretty 1) msg ∧
    model_calls (snd (embed (sample_world {[ "MAX_BATCH_SIZE" := "1" ]}
                                          (texts_request (PList two_texts))))) = [].
Proof.
  apply (embed_batch_too_large
           (sample_world {[ "MAX_BATCH_SIZE" := "1" ]} (texts_request (PList two_texts)))
           {[ "texts" := PList two_texts ]} two_texts 1).
  - reflexivity.
  - reflexivity.
  - discriminate.
  - reflexivity.
  - reflexivity.
Defined.

(** C3 as stated fails when the limit is negative and the list is empty:
    the list is longer than the limit, and the answer is 200. *)
Lemma embed_empty_above_negative_limit :
  max_batch_size (sample_world {[ "MAX_BATCH_SIZE" := "-1" ]} (texts_request (PList [])))
    = Some (-1) ∧
  -1 < Z.of_nat (length (@nil pyval)) ∧
  fst (embed (sample_world {[ "MAX_BATCH_SIZE" := "-1" ]} (texts_request (PList []))))
    = Returns (Response (PDict {[ "embeddings" := PList [] ]}) 200).
Proof. split_and!; reflexivity. Qed.

(** C4. An empty list under "texts" is answered 200 with an empty
    "embeddings" list; the trace holds the read of the body and nothing
    else, so neither the limit nor the model was reached. *)
Theorem embed_empty_list w d :
  request_get_json w = Returns (PDict d) →
  d !! "texts" = Some (PList []) →
  embed w = (Returns (Response (PDict {[ "embeddings" := PList [] ]}) 200), [EvGetJson]).
Proof. apply embed_run_empty. Qed.

Lemma embed_empty_list_witness :
  embed (sample_world {[ "MAX_BATCH_SIZE" := "many" ]} (texts_request (PList [])))
  = (Returns (Response (PDict {[ "embeddings" := PList [] ]}) 200), [EvGetJson]).
Proof.
  apply (embed_empty_list _ {[ "texts" := PList [] ]}); reflexivity.
Defined.

(** C5. A field that is present with the wrong JSON type is rejected with
    400 by both endpoints: "texts" that is not a list by [embed], "text"
    that is not a string by [embed_single]. *)
Theorem wrong_type_is_400 :
  (∀ w d v,
     request_get_json w = Returns (PDict d) → d !! "texts" = Some v → is_list v = false →
     fst (embed w) = Returns (Response (error_body "'texts' must be a list") 400)) ∧
  (∀ w d v,
     request_get_json w = Returns (PDict d) → d !! "text" = Some v → is_str v = false →
     fst (embed_single w) = Returns (Response (error_body "'text' must be a string") 400)).
Proof.
  split; intros w d v Hreq Hd Hv.
  - by rewrite (embed_run_not_list w d v).
  - by rewrite (embed_single_run_not_str w d v).
Qed.

Lemma wrong_type_is_400_witness :
  fst (embed (sample_world ∅ (texts_request (PStr "not a list"))))
    = Returns (Response (error_body "'texts' must be a list") 400) ∧
  fst (embed_single (sample_world ∅ (text_request (PInt 123))))
    = Returns (Response (error_body "'text' must be a string") 400).
Proof.
  split.
  - apply (proj1 wrong_type_is_400 _ {[ "texts" := PStr "not a list" ]} (PStr "not a list"));
      reflexivity.
  - apply (proj2 wrong_type_is_400 _ {[ "text" := PInt 123 ]} (PInt 123)); reflexivity.
Defined.

(** ** The catch-all *)

(** C6, as amended. Whatever instance of [Exception] the [try] block of a
    handler raises, during validation or inference, is turned into the
    body [{"error": str(e)}] with status 500, and the handler returns
    normally; what leaves a handler is never an instance of
    [Exception]. *)
Theorem handlers_catch_exceptions :
  (∀ w e, fst (embed_body w) = Raises e → is_Exception e = true →
          fst (embed w) = Returns (Response (error_body (exn_str e)) 500)) ∧
  (∀ w e, fst (embed_single_body w) = Raises e → is_Exception e = true →
          fst (embed_single w) = Returns (Response (error_body (exn_str e)) 500)) ∧
  (∀ w e, fst (embed w) = Raises e →
          is_Exception e = false ∧ fst (embed_body w) = Raises e) ∧
  (∀ w e, fst (embed_single w) = Raises e →
          is_Exception e = false ∧ fst (embed_single_body w) = Raises e).
Proof.
  split_and!; intros w e.
  - unfold embed, try_except. destruct (embed_body w) as [[r|e'] t]; simpl; [done|].
    intros [= ->] ->. done.
  - unfold embed_single, try_except.
    destruct (embed_single_body w) as [[r|e'] t]; simpl; [done|].
    intros [= ->] ->. done.
  - unfold embed, try_except. destruct (embed_body w) as [[r|e'] t]; simpl; [done|].
    destruct (is_Exception e') eqn:He; simpl; [done|]. by intros [= <-].
  - unfold embed_single, try_except.
    destruct (embed_single_body w) as [[r|e'] t]; simpl; [done|].
    destruct (is_Exception e') eqn:He; simpl; [done|]. by intros [= <-].
Qed.

Lemma handlers_catch_exceptions_witness :
  fst (embed (sample_world ∅ (texts_request (PList mixed_texts))))
  = Returns (Response (error_body "sentences must be str") 500).
Proof.
  apply (proj1 handlers_catch_exceptions
           (sample_world ∅ (texts_request (PList mixed_texts)))
           (Exception "TypeError" "sentences must be str")); reflexivity.
Defined.

(** C6 as stated fails when the model raises [SystemExit], which is not
    an instance of [Exception]: it leaves the handler, and nothing is
    answered or logged. *)
Lemma embed_lets_system_exit_out :
  embed (world_of exiting_encode ∅ (texts_request (PList two_texts)))
  = (Raises (BaseException "SystemExit" "1"),
     [EvGetJson; EvEnvironGet "MAX_BATCH_SIZE";
      EvLog INFO "Generating embeddings for 2 texts";
      EvEncode two_texts (Some 2%nat) 512]).
Proof. reflexivity. Qed.

(** ** The call to the model *)

(** C7. Once a non-empty list has passed validation, the model is called
    exactly once, on the whole list, with [batch_size = min(n, 8)] and
    [max_length = 512]; the texts themselves are not looked at, so the
    answer is never a 400, however long a text is. *)
Theorem embed_calls_model_once w d l m :
  request_get_json w = Returns (PDict d) →
  d !! "texts" = Some (PList l) →
  l ≠ [] →
  max_batch_size w = Some m →
  Z.of_nat (length l) ≤ m →
  model_calls (snd (embed w)) = [EvEncode l (Some (Nat.min (length l) 8)) 512] ∧
  ∀ r, fst (embed w) = Returns r → status r ≠ 400%nat.
Proof.
  intros Hreq Hd Hl Hmax Hle.
  rewrite (embed_run_limit w d l m Hreq Hd Hl Hmax).
  assert ((m <? Z.of_nat (length l)) = false) as -> by lia.
  cbv zeta. destruct (model_encode w l _ _) as [res|[c msg|c msg]];
    [destruct (res !! "dense_vecs")| |].
  all: split; [done|]; by intros r [= <-].
Qed.

Lemma embed_calls_model_once_witness :
  model_calls (snd (embed (sample_world ∅ (texts_request (PList two_texts)))))
    = [EvEncode two_texts (Some (Nat.min (length two_texts) 8)) 512] ∧
  ∀ r, fst (embed (sample_world ∅ (texts_request (PList two_texts)))) = Returns r →
       status r ≠ 400%nat.
Proof.
  apply (embed_calls_model_once _ {[ "texts" := PList two_texts ]} two_texts 32).
  - reflexivity.
  - reflexivity.
  - discriminate.
  - reflexivity.
  - vm_compute. discriminate.
Defined.

(** ** The single-text endpoint *)

(** C8. With a string under "text", [embed_single] calls the model once on
    the one-element list holding that string, with [max_length = 512] and
    no [batch_size]; it never reads the environment; and when the model
    answers, the response is 200 with "embedding" bound to the first row
    itself, a list of floats. *)
Theorem embed_single_string w d s :
  request_get_json w = Returns (PDict d) →
  d !! "text" = Some (PStr s) →
  model_calls (snd (embed_single w)) = [EvEncode [PStr s] None 512] ∧
  environ_reads (snd (embed_single w)) = [] ∧
  ∀ res v rows,
    model_encode w [PStr s] None 512 = Returns res →
    res !! "dense_vecs" = Some (v :: rows) →
    fst (embed_single w) = Returns (Response (PDict {[ "embedding" := PList (PFloat <$> v) ]}) 200).
Proof.
  intros Hreq Hd. rewrite (embed_single_run_str w d s Hreq Hd). cbv zeta.
  change MAX_LENGTH with 512%nat.
  split_and!.
  - destruct (model_encode w _ _ _) as [res|[c msg|c msg]];
      [destruct (res !! "dense_vecs") as [[|v rows]|]| |]; done.
  - destruct (model_encode w _ _ _) as [res|[c msg|c msg]];
      [destruct (res !! "dense_vecs") as [[|v rows]|]| |]; done.
  - by intros res v rows -> ->.
Qed.

Lemma embed_single_string_witness :
  fst (embed_single (sample_world ∅ (text_request (PStr "hello"))))
  = Returns (Response (PDict {[ "embedding" := PList [PFloat (FNum 5 0)] ]}) 200).
Proof.
  apply (proj2 (proj2 (embed_single_string
                         (sample_world ∅ (text_request (PStr "hello")))
                         {[ "text" := PStr "hello" ]} "hello" eq_refl eq_refl))
           {[ "dense_vecs" := [[FNum 5 0]] ]} [FNum 5 0] []); reflexivity.
Defined.

(** ** What is not validated *)

(** C9, as amended. The elements of a non-empty list within the limit are
    not looked at: whatever they are, the model is called on the list as
    it came, and when the model fails with an instance of [Exception],
    the answer is 500 with the model's message, not 400. *)
Theorem embed_elements_unchecked w d l m :
  request_get_json w = Returns (PDict d) →
  d !! "texts" = Some (PList l) →
  l ≠ [] →
  max_batch_size w = Some m →
  Z.of_nat (length l) ≤ m →
  model_calls (snd (embed w)) = [EvEncode l (Some (Nat.min (length l) 8)) 512] ∧
  ∀ class msg,
    model_encode w l (Some (Nat.min (length l) 8)) 512 = Raises (Exception class msg) →
    fst (embed w) = Returns (Response (error_body msg) 500).
Proof.
  intros Hreq Hd Hl Hmax Hle.
  rewrite (embed_run_limit w d l m Hreq Hd Hl Hmax).
  assert ((m <? Z.of_nat (length l)) = false) as -> by lia.
  cbv zeta. change MAX_LENGTH with 512%nat. split.
  - destruct (model_encode w l _ _) as [res|[c msg|c msg]];
      [destruct (res !! "dense_vecs")| |]; done.
  - by intros c msg ->.
Qed.

Lemma embed_elements_unchecked_witness :
  model_calls (snd (embed (sample_world ∅ (texts_request (PList mixed_texts)))))
    = [EvEncode mixed_texts (Some (Nat.min (length mixed_texts) 8)) 512] ∧
  fst (embed (sample_world ∅ (texts_request (PList mixed_texts))))
    = Returns (Response (error_body "sentences must be str") 500).
Proof.
  destruct (embed_elements_unchecked
              (sample_world ∅ (texts_request (PList mixed_texts)))
              {[ "texts" := PList mixed_texts ]} mixed_texts 32) as [Hcall Hfail].
  - reflexivity.
  - reflexivity.
  - discriminate.
  - reflexivity.
  - vm_compute. discriminate.
  - split; [exact Hcall|]. apply (Hfail "TypeError" "sentences must be str"). reflexivity.
Defined.

(** C9 as stated fails on the empty list: its length is within the limit
    and the model is not called. *)
Lemma embed_empty_list_skips_model :
  max_batch_size (sample_world ∅ (texts_request (PList []))) = Some 32 ∧
  Z.of_nat (length (@nil pyval)) ≤ 32 ∧
  model_calls (snd (embed (sample_world ∅ (texts_request (PList []))))) = [].
Proof. split_and!; [reflexivity | vm_compute; discriminate | reflexivity]. Qed.

(** ** The limit *)

Ltac present := simpl; rewrite ?elem_of_cons; auto 10.

(** C10. The limit is read from the environment on every request with a
    non-empty list: the same request under two environments is held to
    the limit of each, refused under the one and passed to the model
    under the other; a value of MAX_BATCH_SIZE that [int] refuses makes
    every such request a 500 with the message of that refusal, while a
    request with an empty list is still answered 200. *)
Theorem limit_read_per_request :
  (∀ w d l,
     request_get_json w = Returns (PDict d) → d !! "texts" = Some (PList l) → l ≠ [] →
     EvEnvironGet "MAX_BATCH_SIZE" ∈ snd (embed w)) ∧
  (∀ enc int env1 env2 d l m1 m2,
     d !! "texts" = Some (PList l) → l ≠ [] →
     max_batch_size (World enc env1 (Returns (PDict d)) int) = Some m1 →
     max_batch_size (World enc env2 (Returns (PDict d)) int) = Some m2 →
     m1 < Z.of_nat (length l) ≤ m2 →
     fst (embed (World enc env1 (Returns (PDict d)) int))
       = Returns (Response (error_body ("Batch size " +:+ pretty (length l)
                                        +:+ " exceeds maximum " +:+ pretty m1)) 400) ∧
     model_calls (snd (embed (World enc env1 (Returns (PDict d)) int))) = [] ∧
     model_calls (snd (embed (World enc env2 (Returns (PDict d)) int)))
       = [EvEncode l (Some (Nat.min (length l) 8)) 512]) ∧
  (∀ w d l s msg,
     request_get_json w = Returns (PDict d) → d !! "texts" = Some (PList l) → l ≠ [] →
     os_environ w !! "MAX_BATCH_SIZE" = Some s → builtin_int w s = inr msg →
     fst (embed w) = Returns (Response (error_body msg) 500) ∧
     model_calls (snd (embed w)) = []) ∧
  (∀ w d,
     request_get_json w = Returns (PDict d) → d !! "texts" = Some (PList []) →
     fst (embed w) = Returns (Response (PDict {[ "embeddings" := PList [] ]}) 200)).
Proof.
  split_and!.
  - intros w d l Hreq Hd Hl.
    destruct (os_environ w !! "MAX_BATCH_SIZE") as [s|] eqn:Henv;
      [destruct (builtin_int w s) as [m|msg] eqn:Hint|].
    + rewrite (embed_run_limit w d l m Hreq Hd Hl);
        [|unfold max_batch_size; by rewrite Henv, Hint].
      destruct (_ <? _); [present|]. cbv zeta.
      destruct (model_encode w l _ _) as [res|[c msg|c msg]];
        [destruct (res !! "dense_vecs")| |]; unfold caught; present.
    + rewrite (embed_run_bad_limit w d l s msg Hreq Hd Hl Henv Hint). unfold caught. present.
    + rewrite (embed_run_limit w d l DEFAULT_MAX_BATCH_SIZE Hreq Hd Hl);
        [|unfold max_batch_size; by rewrite Henv].
      destruct (_ <? _); [present|]. cbv zeta.
      destruct (model_encode w l _ _) as [res|[c msg|c msg]];
        [destruct (res !! "dense_vecs")| |]; unfold caught; present.
  - intros enc int env1 env2 d l m1 m2 Hd Hl Hm1 Hm2 [Hlt Hle].
    rewrite (embed_run_limit (World enc env1 _ int) d l m1 eq_refl Hd Hl Hm1).
    rewrite (embed_run_limit (World enc env2 _ int) d l m2 eq_refl Hd Hl Hm2).
    assert ((m1 <? Z.of_nat (length l)) = true) as -> by lia.
    assert ((m2 <? Z.of_nat (length l)) = false) as -> by lia.
    cbv zeta. cbn [model_encode]. split_and!; [done..|].
    destruct (enc l _ _) as [res|[c msg|c msg]]; [destruct (res !! "dense_vecs")| |]; done.
  - intros w d l s msg Hreq Hd Hl Henv Hint.
    by rewrite (embed_run_bad_limit w d l s msg Hreq Hd Hl Henv Hint).
  - intros w d Hreq Hd. by rewrite (embed_run_empty w d Hreq Hd).
Qed.

Lemma limit_read_per_request_witness :
  (fst (embed (sample_world {[ "MAX_BATCH_SIZE" := "1" ]} (texts_request (PList two_texts))))
     = Returns (Response (error_body "Batch size 2 exceeds maximum 1") 400) ∧
   model_calls (snd (embed (sample_world {[ "MAX_BATCH_SIZE" := "1" ]}
                                         (texts_request (PList two_texts))))) = [] ∧
   model_calls (snd (embed (sample_world {[ "MAX_BATCH_SIZE" := "5" ]}
                                         (texts_request (PList two_texts)))))
     = [EvEncode two_texts (Some (Nat.min (length two_texts) 8)) 512]) ∧
  (fst (embed (sample_world {[ "MAX_BATCH_SIZE" := "many" ]} (texts_request (PList two_texts))))
     = Returns (Response (error_body "invalid literal for int() with base 10: 'many'") 500) ∧
   model_calls (snd (embed (sample_world {[ "MAX_BATCH_SIZE" := "many" ]}
                                         (texts_request (PList two_texts))))) = []).
Proof.
  split.
  - apply (proj1 (proj2 limit_read_per_request) sample_encode sample_int
             {[ "MAX_BATCH_SIZE" := "1" ]} {[ "MAX_BATCH_SIZE" := "5" ]}
             {[ "texts" := PList two_texts ]} two_texts 1 5).
    + reflexivity.
    + discriminate.
    + reflexivity.
    + reflexivity.
    + vm_compute. split; [reflexivity | discriminate].
  - apply (proj1 (proj2 (proj2 limit_read_per_request))
             (sample_world {[ "MAX_BATCH_SIZE" := "many" ]} (texts_request (PList two_texts)))
             {[ "texts" := PList two_texts ]} two_texts "many"
             "invalid literal for int() with base 10: 'many'").
    + reflexivity.
    + reflexivity.
    + discriminate.
    + reflexivity.
    + reflexivity.
Defined.

(** * Further properties of the handlers and of startup *)

(** ** Substrings and membership *)

Lemma prefix_app (n h : string) :
  String.prefix n h = true ↔ ∃ after, h = n +:+ after.
Proof.
  revert h. induction n as [|a n IH]; intros h; simpl.
  - split; [intros _; by exists h | by destruct h].
  - destruct h as [|b h]; [split; [done | intros [x Hx]; discriminate]|].
    cbn [String.prefix]. destruct (Ascii.ascii_dec a b) as [->|Hne].
    + rewrite IH. split; intros [x Hx]; exists x; rewrite ?append_cons in *; congruence.
    + split; [done | intros [x Hx]; rewrite append_cons in Hx; congruence].
Qed.

Lemma str_contains_nil (n : string) :
  str_contains n EmptyString = String.prefix n EmptyString || false.
Proof. reflexivity. Qed.

Lemma str_contains_cons (n : string) b h :
  str_contains n (String b h) = String.prefix n (String b h) || str_contains n h.
Proof. reflexivity. Qed.

Lemma str_contains_occurs (n h : string) :
  str_contains n h = true ↔ occurs_in n h.
Proof.
  unfold occurs_in. induction h as [|b h IH];
    [rewrite str_contains_nil | rewrite str_contains_cons].
  - rewrite orb_false_r, prefix_app. split.
    + intros [x Hx]. by exists EmptyString, x.
    + intros (p & x & Hx). destruct p; [by exists x | by rewrite append_cons in Hx].
  - rewrite orb_true_iff, IH, prefix_app. split.
    + intros [[x Hx]|(p & x & Hx)]; [by exists EmptyString, x|].
      exists (String b p), x. by rewrite append_cons, Hx.
    + intros (p & x & Hx). destruct p as [|c p]; [left; by exists x|].
      right. exists p, x. rewrite append_cons in Hx. congruence.
Qed.

Lemma existsb_str_elem key (l : list pyval) :
  existsb (λ v, match v with PStr s => String.eqb key s | _ => false end) l = true
  ↔ PStr key ∈ l.
Proof.
  rewrite existsb_exists. split.
  - intros (v & Hin & Hv). destruct v; try done.
    apply String.eqb_eq in Hv. subst. by apply list_elem_of_In.
  - intros Hin. exists (PStr key). split; [by apply list_elem_of_In|]. apply String.eqb_refl.
Qed.

Lemma error_body_inj (a b : string) : error_body a = error_body b → a = b.
Proof.
  unfold error_body. intros H.
  apply (f_equal (λ v, match v with PDict d => d !! "error" | _ => None end)) in H.
  cbv beta iota in H. rewrite !lookup_singleton_eq in H. congruence.
Qed.

Lemma length_eqb_nil {A} (l : list A) : Nat.eqb (length l) 0 = true → l = [].
Proof. by destruct l. Qed.

Lemma length_eqb_cons {A} (l : list A) : Nat.eqb (length l) 0 = false → l ≠ [].
Proof. by destruct l. Qed.

(** ** All the paths of a handler *)

(** One goal per path through [embed] in world [w], with the run
    evaluated and the tests that select the path in the context. *)
Ltac embed_paths w :=
  unfold_run; unfold truthy;
  destruct (request_get_json w) as [[| [|] |z|[m ex|neg|]|s|l|d]|[c0 m0|c0 m0]] eqn:Hjson;
  simpl;
  try (destruct (z =? 0) eqn:Hz; simpl);
  try (destruct (m =? 0) eqn:Hm; simpl);
  try (destruct (Nat.eqb (String.length s) 0) eqn:Hlen; simpl;
       [|destruct (str_contains "texts" s) eqn:Hsub; simpl]);
  try (destruct (Nat.eqb (length l) 0) eqn:Hlen; simpl;
       [|match goal with |- context [existsb ?f l] =>
           destruct (existsb f l) eqn:Hmem; simpl end]);
  try (destruct (size d) as [|n] eqn:Hsize; simpl;
       [|destruct (d !! "texts") as [[| | | | |texts|]|] eqn:Htexts; simpl;
         try (destruct (Nat.eqb (length texts) 0) eqn:Hlen; simpl;
              [|destruct (os_environ w !! "MAX_BATCH_SIZE") as [raw|] eqn:Henv; simpl;
                [destruct (builtin_int w raw) as [lim|refusal] eqn:Hint; simpl;
                 [destruct (lim <? _) eqn:Hcmp; simpl|]
                |destruct (DEFAULT_MAX_BATCH_SIZE <? _) eqn:Hcmp; simpl];
                try (destruct (model_encode w _ _ _) as [res|[c1 m1|c1 m1]] eqn:Hmodel;
                     simpl;
                     [destruct (res !! "dense_vecs") as [dense|] eqn:Hdense; simpl| |])])]).

(** The same for [embed_single]. *)
Ltac embed_single_paths w :=
  unfold_run; unfold truthy;
  destruct (request_get_json w) as [[| [|] |z|[m ex|neg|]|s|l|d]|[c0 m0|c0 m0]] eqn:Hjson;
  simpl;
  try (destruct (z =? 0) eqn:Hz; simpl);
  try (destruct (m =? 0) eqn:Hm; simpl);
  try (destruct (Nat.eqb (String.length s) 0) eqn:Hlen; simpl;
       [|destruct (str_contains "text" s) eqn:Hsub; simpl]);
  try (destruct (Nat.eqb (length l) 0) eqn:Hlen; simpl;
       [|match goal with |- context [existsb ?f l] =>
           destruct (existsb f l) eqn:Hmem; simpl end]);
  try (destruct (size d) as [|n] eqn:Hsize; simpl;
       [|destruct (d !! "text") as [[| | | |text| |]|] eqn:Htext; simpl;
         try (destruct (model_encode w _ _ _) as [res|[c1 m1|c1 m1]] eqn:Hmodel; simpl;
              [destruct (res !! "dense_vecs") as [[|row rows]|] eqn:Hdense; simpl| |])]).

(** ** What every answer looks like *)

(** X1. Whenever a handler answers, the answer is one of three kinds:
    200 with the result under "embeddings" (a list) or "embedding", or
    400 or 500 with a body that is exactly [{"error": message}]. The only
    way a handler does not answer is that [get_json] or the model raised
    something that is not an instance of [Exception], which then leaves
    the handler as it is. *)
Theorem responses_have_three_shapes w :
  match fst (embed w) with
  | Returns r =>
      (status r = 200%nat ∧ ∃ out, body r = PDict {[ "embeddings" := PList out ]}) ∨
      ((status r = 400%nat ∨ status r = 500%nat) ∧ ∃ msg, body r = error_body msg)
  | Raises e =>
      is_Exception e = false ∧
      (request_get_json w = Raises e ∨ ∃ l b n, model_encode w l b n = Raises e)
  end ∧
  match fst (embed_single w) with
  | Returns r =>
      (status r = 200%nat ∧ ∃ v, body r = PDict {[ "embedding" := PList (PFloat <$> v) ]}) ∨
      ((status r = 400%nat ∨ status r = 500%nat) ∧ ∃ msg, body r = error_body msg)
  | Raises e =>
      is_Exception e = false ∧
      (request_get_json w = Raises e ∨ ∃ l b n, model_encode w l b n = Raises e)
  end.
Proof.
  split.
  - embed_paths w.
    all: first
      [ left; split; [done|]; by eexists
      | right; split; [by auto|]; by eexists
      | split; [done|]; first [by left | right; by do 3 eexists] ].
  - embed_single_paths w.
    all: first
      [ left; split; [done|]; by eexists
      | right; split; [by auto|]; by eexists
      | split; [done|]; first [by left | right; by do 3 eexists] ].
Qed.

(** ** The model call in every world *)

(** X2. In every world [embed] calls the model at most once, and a call
    it makes has a non-empty list, [max_length = 512] and a [batch_size]
    between 1 and 8 that does not exceed the length of the list; a 400
    answer comes with no call at all. *)
Theorem embed_model_call_discipline w r :
  fst (embed w) = Returns r →
  (model_calls (snd (embed w)) = [] ∨
   ∃ l b, model_calls (snd (embed w)) = [EvEncode l (Some b) 512] ∧
          (1 ≤ b ≤ 8)%nat ∧ (b ≤ length l)%nat) ∧
  (status r = 400%nat → model_calls (snd (embed w)) = []).
Proof.
  embed_paths w.
  all: intros [= <-]; simpl.
  all: try (split; [by left | done]).
  all: apply length_eqb_cons in Hlen.
  all: split; [right|done]; do 2 eexists; (split; [reflexivity|]).
  all: destruct texts; [done|]; simpl; lia.
Qed.

Lemma embed_model_call_discipline_witness :
  (model_calls (snd (embed (sample_world ∅ (texts_request (PList two_texts))))) = [] ∨
   ∃ l b, model_calls (snd (embed (sample_world ∅ (texts_request (PList two_texts))))) = [EvEncode l (Some b) 512] ∧
          (1 ≤ b ≤ 8)%nat ∧ (b ≤ length l)%nat) ∧
  (status (Response (PDict {[ "embeddings" := tolist_2d two_rows ]}) 200) = 400%nat →
   model_calls (snd (embed (sample_world ∅ (texts_request (PList two_texts))))) = []).
Proof. apply (embed_model_call_discipline (sample_world ∅ (texts_request (PList two_texts)))). reflexivity. Defined.

(** X3. In every world [embed_single] calls the model at most once, and
    only ever on a one-element list holding a [str], with
    [max_length = 512] and no [batch_size]; a 400 answer comes with no
    call at all. *)
Theorem embed_single_model_call_discipline w r :
  fst (embed_single w) = Returns r →
  (model_calls (snd (embed_single w)) = [] ∨
   ∃ s, model_calls (snd (embed_single w)) = [EvEncode [PStr s] None 512]) ∧
  (status r = 400%nat → model_calls (snd (embed_single w)) = []).
Proof.
  embed_single_paths w.
  all: intros [= <-]; simpl.
  all: try (split; [by left | done]).
  all: split; [right; by eexists | done].
Qed.

Lemma embed_single_model_call_discipline_witness :
  (model_calls (snd (embed_single (sample_world ∅ (text_request (PStr "hello"))))) = [] ∨
   ∃ s, model_calls (snd (embed_single (sample_world ∅ (text_request (PStr "hello"))))) = [EvEncode [PStr s] None 512]) ∧
  (status (Response (PDict {[ "embedding" := tolist_1d [FNum 5 0] ]}) 200) = 400%nat →
   model_calls (snd (embed_single (sample_world ∅ (text_request (PStr "hello"))))) = []).
Proof. apply (embed_single_model_call_discipline (sample_world ∅ (text_request (PStr "hello")))). reflexivity. Defined.

(** ** Logging *)

(** X4. An answer of [embed] is a 500 exactly when the run logged an
    error, and then it logged one error, whose text is the handler's
    prefix followed by the very message sent to the client; 200 and 400
    answers log no error. *)
Theorem embed_logs_what_it_answers w r :
  fst (embed w) = Returns r →
  (status r = 500%nat ∧
   ∃ msg, body r = error_body msg ∧
          error_logs (snd (embed w)) = [EvLog ERROR ("Error generating embeddings: " +:+ msg)]) ∨
  (status r ≠ 500%nat ∧ error_logs (snd (embed w)) = []).
Proof.
  embed_paths w.
  all: intros [= <-]; simpl.
  all: first [by right | left; split; [done|]; eexists; by split].
Qed.

Lemma embed_logs_what_it_answers_witness :
  (status (Response (error_body "sentences must be str") 500) = 500%nat ∧
   ∃ msg, body (Response (error_body "sentences must be str") 500) = error_body msg ∧
          error_logs (snd (embed (sample_world ∅ (texts_request (PList mixed_texts)))))
          = [EvLog ERROR ("Error generating embeddings: " +:+ msg)]) ∨
  (status (Response (error_body "sentences must be str") 500) ≠ 500%nat ∧
   error_logs (snd (embed (sample_world ∅ (texts_request (PList mixed_texts))))) = []).
Proof. apply (embed_logs_what_it_answers (sample_world ∅ (texts_request (PList mixed_texts)))). reflexivity. Defined.

(** X5. The same for [embed_single], with its own prefix. *)
Theorem embed_single_logs_what_it_answers w r :
  fst (embed_single w) = Returns r →
  (status r = 500%nat ∧
   ∃ msg, body r = error_body msg ∧
          error_logs (snd (embed_single w)) = [EvLog ERROR ("Error generating embedding: " +:+ msg)]) ∨
  (status r ≠ 500%nat ∧ error_logs (snd (embed_single w)) = []).
Proof.
  embed_single_paths w.
  all: intros [= <-]; simpl.
  all: first [by right | left; split; [done|]; eexists; by split].
Qed.

Lemma embed_single_logs_what_it_answers_witness :
  (status (Response (error_body "'text' must be a string") 400) = 500%nat ∧
   ∃ msg, body (Response (error_body "'text' must be a string") 400) = error_body msg ∧
          error_logs (snd (embed_single (sample_world ∅ (text_request (PInt 123)))))
          = [EvLog ERROR ("Error generating embedding: " +:+ msg)]) ∨
  (status (Response (error_body "'text' must be a string") 400) ≠ 500%nat ∧
   error_logs (snd (embed_single (sample_world ∅ (text_request (PInt 123))))) = []).
Proof. apply (embed_single_logs_what_it_answers (sample_world ∅ (text_request (PInt 123)))). reflexivity. Defined.

(** ** What a run touches *)

(** X6. In every world a run of either handler starts by reading the body
    and never reads it again; [embed] reads the environment at most once
    and only the variable MAX_BATCH_SIZE, and [embed_single] never reads
    the environment. *)
Ltac absent :=
  rewrite ?not_elem_of_cons; repeat split; try done; apply not_elem_of_nil.

Theorem handlers_read_body_once w :
  (∃ rest, snd (embed w) = EvGetJson :: rest ∧ (EvGetJson ∉ rest) ∧
     (environ_reads rest = [] ∨ environ_reads rest = [EvEnvironGet "MAX_BATCH_SIZE"])) ∧
  (∃ rest, snd (embed_single w) = EvGetJson :: rest ∧ (EvGetJson ∉ rest) ∧
     environ_reads rest = []).
Proof.
  split.
  - embed_paths w.
    all: eexists; split; [reflexivity|]; split; [absent|]; simpl; auto.
  - embed_single_paths w.
    all: eexists; split; [reflexivity|]; split; [absent|]; done.
Qed.

(** X7. When [get_json] itself raises an instance of [Exception], as the
    framework does on a body it cannot parse, both handlers answer 500
    with the framework's message and log it, and neither the environment
    nor the model is touched; what it raises outside [Exception] leaves
    the handler with nothing logged. *)
Theorem get_json_failure_is_500 w e :
  request_get_json w = Raises e →
  (is_Exception e = true →
   embed w = (Returns (Response (error_body (exn_str e)) 500),
              [EvGetJson; EvLog ERROR ("Error generating embeddings: " +:+ exn_str e)]) ∧
   embed_single w = (Returns (Response (error_body (exn_str e)) 500),
                     [EvGetJson; EvLog ERROR ("Error generating embedding: " +:+ exn_str e)])) ∧
  (is_Exception e = false →
   embed w = (Raises e, [EvGetJson]) ∧ embed_single w = (Raises e, [EvGetJson])).
Proof. intros H. unfold_run. rewrite H. by destruct e. Qed.

Lemma get_json_failure_is_500_witness :
  fst (embed (sample_world ∅
         (Raises (Exception "BadRequest" "400 Bad Request: Failed to decode JSON object"))))
  = Returns (Response (error_body "400 Bad Request: Failed to decode JSON object") 500).
Proof.
  apply (f_equal fst
           (proj1 (proj1 (get_json_failure_is_500
                     (sample_world ∅
                        (Raises (Exception "BadRequest"
                                   "400 Bad Request: Failed to decode JSON object")))
                     (Exception "BadRequest" "400 Bad Request: Failed to decode JSON object")
                     eq_refl) eq_refl))).
Defined.

(** ** Exactly when a request is answered which way *)

Lemma response_error_inv msg msg' (c c' : nat) :
  @Returns response (Response (error_body msg) c) = Returns (Response (error_body msg') c') →
  msg = msg' ∧ c = c'.
Proof.
  intros H. split.
  - apply error_body_inj.
    by apply (f_equal (λ x, match x with Returns r => body r | Raises _ => PNone end)) in H.
  - by apply (f_equal (λ x, match x with Returns r => status r | Raises _ => 0%nat end)) in H.
Qed.

Ltac status_clash H :=
  apply (f_equal (λ x, match x with Returns r => status r | Raises _ => 0%nat end)) in H;
  cbv beta iota in H; simpl in H; discriminate H.

Ltac message_clash H :=
  apply response_error_inv in H as [H _]; cbv [String.append] in H; discriminate H.

(** X8. [embed] answers "Missing 'texts' field" with 400 exactly when
    [get_json] returned a falsy value, an object without the key "texts",
    an array none of whose elements is the string "texts", or a string in
    which "texts" does not occur. *)
Theorem embed_missing_field_iff w :
  fst (embed w) = Returns (Response (error_body "Missing 'texts' field") 400) ↔
  ∃ v, request_get_json w = Returns v ∧
    (truthy v = false ∨
     match v with
     | PDict d => d !! "texts" = None
     | PList l => PStr "texts" ∉ l
     | PStr s => ¬ occurs_in "texts" s
     | _ => False
     end).
Proof.
  split.
  - embed_paths w; intros H.
    all: first
      [ status_clash H
      | message_clash H
      | eexists; split; [reflexivity|];
        first
          [ left; unfold truthy; rewrite ?Hz, ?Hm, ?Hlen, ?Hsize; reflexivity
          | right; first
              [ done
              | rewrite <- str_contains_occurs, Hsub; done
              | rewrite <- existsb_str_elem, Hmem; done ] ] ].
  - intros (v & Hjson & Hv). unfold_run. rewrite Hjson.
    destruct (truthy v) eqn:Ht; [|done].
    destruct Hv as [Hv|Hv]; [congruence|].
    destruct v; try done; simpl.
    + assert (str_contains "texts" s = false) as ->; [|done].
      apply not_true_is_false. by rewrite str_contains_occurs.
    + match goal with |- context [existsb ?f l] => assert (existsb f l = false) as -> end;
        [|done].
      apply not_true_is_false. by rewrite existsb_str_elem.
    + by rewrite Hv.
Qed.

(** X9. [embed] answers 200 exactly when the body is an object whose
    "texts" is a list that is empty, or that is within a limit [int]
    accepts and for which the model returns a result holding
    "dense_vecs". *)
Theorem embed_ok_iff w :
  (∃ r, fst (embed w) = Returns r ∧ status r = 200%nat) ↔
  ∃ d l, request_get_json w = Returns (PDict d) ∧ d !! "texts" = Some (PList l) ∧
    (l = [] ∨
     ∃ m res dense,
       max_batch_size w = Some m ∧ Z.of_nat (length l) ≤ m ∧
       model_encode w l (Some (Nat.min (length l) 8)) 512 = Returns res ∧
       res !! "dense_vecs" = Some dense).
Proof.
  split.
  - unfold max_batch_size. embed_paths w; intros (r & [= <-] & Hs); try discriminate Hs.
    + exists d, texts. split_and!; [done..|]. left. by apply length_eqb_nil.
    + exists d, texts. split_and!; [done..|]. right. exists lim, res, dense.
      split_and!; [done | lia | done | done].
    + exists d, texts. split_and!; [done..|]. right. exists DEFAULT_MAX_BATCH_SIZE, res, dense.
      split_and!; [done | lia | done | done].
  - intros (d & l & Hjson & Hd & Hcase). destruct l as [|x l'] eqn:El.
    + rewrite (embed_run_empty w d Hjson Hd). by eexists.
    + destruct Hcase as [?|(m & res & dense & Hmax & Hle & Hmodel & Hdense)]; [done|].
      rewrite (embed_run_limit w d (x :: l') m Hjson Hd ltac:(done) Hmax).
      assert ((m <? Z.of_nat (length (x :: l'))) = false) as -> by lia.
      cbv zeta. change MAX_LENGTH with 512%nat. rewrite Hmodel, Hdense. by eexists.
Qed.

(** X10. [embed_single] answers 200 exactly when the body is an object
    whose "text" is a string and the model returns a result whose
    "dense_vecs" has at least one row. *)
Theorem embed_single_ok_iff w :
  (∃ r, fst (embed_single w) = Returns r ∧ status r = 200%nat) ↔
  ∃ d s res row rows,
    request_get_json w = Returns (PDict d) ∧ d !! "text" = Some (PStr s) ∧
    model_encode w [PStr s] None 512 = Returns res ∧
    res !! "dense_vecs" = Some (row :: rows).
Proof.
  split.
  - embed_single_paths w; intros (r & [= <-] & Hs); try discriminate Hs.
    by exists d, text, res, row, rows.
  - intros (d & s & res & row & rows & Hjson & Hd & Hmodel & Hdense).
    rewrite (embed_single_run_str w d s Hjson Hd). cbv zeta.
    change MAX_LENGTH with 512%nat. rewrite Hmodel, Hdense. by eexists.
Qed.

(** X12. With MAX_BATCH_SIZE unset the limit is 32: a non-empty list
    reaches the model exactly when it has at most 32 elements. *)
Theorem default_limit_is_32 w d l :
  request_get_json w = Returns (PDict d) →
  d !! "texts" = Some (PList l) →
  l ≠ [] →
  os_environ w !! "MAX_BATCH_SIZE" = None →
  (model_calls (snd (embed w)) = [EvEncode l (Some (Nat.min (length l) 8)) 512]
   ↔ (length l ≤ 32)%nat) ∧
  ((32 < length l)%nat →
   fst (embed w) = Returns (Response (error_body ("Batch size " +:+ pretty (length l)
                                                  +:+ " exceeds maximum 32")) 400)).
Proof.
  intros Hjson Hd Hl Henv.
  assert (max_batch_size w = Some 32) as Hmax.
  { unfold max_batch_size. by rewrite Henv. }
  rewrite (embed_run_limit w d l 32 Hjson Hd Hl Hmax).
  destruct (32 <? Z.of_nat (length l)) eqn:Hcmp.
  - split; [|done]. split; [done|lia].
  - split; [|lia]. cbv zeta. change MAX_LENGTH with 512%nat.
    destruct (model_encode w l _ _) as [res|[c msg|c msg]];
      [destruct (res !! "dense_vecs")| |]; (split; [lia|done]).
Qed.

Lemma default_limit_is_32_witness :
  model_calls (snd (embed (sample_world ∅ (texts_request (PList two_texts))))) = [EvEncode two_texts (Some (Nat.min (length two_texts) 8)) 512].
Proof.
  apply (proj1 (default_limit_is_32 (sample_world ∅ (texts_request (PList two_texts))) {[ "texts" := PList two_texts ]} two_texts
                  eq_refl eq_refl ltac:(discriminate) eq_refl)).
  vm_compute. lia.
Defined.

(** ** What the model hands back *)

(** X13. The rows the model returns are relayed as they are: a valid
    request is answered 200 with as many embeddings as the model gave
    rows, whether or not that is the number of texts. *)
Theorem embed_relays_rows w d l m res dense :
  request_get_json w = Returns (PDict d) →
  d !! "texts" = Some (PList l) →
  l ≠ [] →
  max_batch_size w = Some m →
  Z.of_nat (length l) ≤ m →
  model_encode w l (Some (Nat.min (length l) 8)) 512 = Returns res →
  res !! "dense_vecs" = Some dense →
  ∃ out,
    fst (embed w) = Returns (Response (PDict {[ "embeddings" := PList out ]}) 200) ∧
    length out = length dense ∧
    ∀ i, out !! i = (λ row, PList (PFloat <$> row)) <$> (dense !! i).
Proof.
  intros Hjson Hd Hl Hmax Hle Hmodel Hdense.
  rewrite (embed_run_limit w d l m Hjson Hd Hl Hmax).
  assert ((m <? Z.of_nat (length l)) = false) as -> by lia.
  cbv zeta. change MAX_LENGTH with 512%nat. rewrite Hmodel, Hdense.
  exists (tolist_1d <$> dense). split_and!; [done | by rewrite length_fmap |].
  intros i. by rewrite list_lookup_fmap.
Qed.

Lemma embed_relays_rows_witness :
  ∃ out,
    fst (embed (world_of one_row_encode ∅ (texts_request (PList two_texts))))
      = Returns (Response (PDict {[ "embeddings" := PList out ]}) 200) ∧
    length out = length [[FNum 0 0]] ∧
    ∀ i, out !! i = (λ row, PList (PFloat <$> row)) <$> ([[FNum 0 0]] !! i).
Proof.
  apply (embed_relays_rows (world_of one_row_encode ∅ (texts_request (PList two_texts)))
           {[ "texts" := PList two_texts ]} two_texts 32
           {[ "dense_vecs" := [[FNum 0 0]] ]} [[FNum 0 0]]).
  - reflexivity.
  - reflexivity.
  - discriminate.
  - reflexivity.
  - vm_compute. discriminate.
  - reflexivity.
  - reflexivity.
Defined.

(** X14. A model result that does not do: without the key "dense_vecs"
    both handlers answer 500 with the message ['dense_vecs'], and with an
    empty "dense_vecs" array [embed_single] answers 500 with the index
    error. *)
Theorem unusable_model_result_is_500 :
  (∀ w d l m res,
     request_get_json w = Returns (PDict d) → d !! "texts" = Some (PList l) → l ≠ [] →
     max_batch_size w = Some m → Z.of_nat (length l) ≤ m →
     model_encode w l (Some (Nat.min (length l) 8)) 512 = Returns res →
     res !! "dense_vecs" = None →
     fst (embed w) = Returns (Response (error_body "'dense_vecs'") 500)) ∧
  (∀ w d s res,
     request_get_json w = Returns (PDict d) → d !! "text" = Some (PStr s) →
     model_encode w [PStr s] None 512 = Returns res →
     res !! "dense_vecs" = None →
     fst (embed_single w) = Returns (Response (error_body "'dense_vecs'") 500)) ∧
  (∀ w d s res,
     request_get_json w = Returns (PDict d) → d !! "text" = Some (PStr s) →
     model_encode w [PStr s] None 512 = Returns res →
     res !! "dense_vecs" = Some [] →
     fst (embed_single w)
       = Returns (Response (error_body "index 0 is out of bounds for axis 0 with size 0") 500)).
Proof.
  split_and!.
  - intros w d l m res Hjson Hd Hl Hmax Hle Hmodel Hdense.
    rewrite (embed_run_limit w d l m Hjson Hd Hl Hmax).
    assert ((m <? Z.of_nat (length l)) = false) as -> by lia.
    cbv zeta. change MAX_LENGTH with 512%nat. by rewrite Hmodel, Hdense.
  - intros w d s res Hjson Hd Hmodel Hdense.
    rewrite (embed_single_run_str w d s Hjson Hd). cbv zeta.
    change MAX_LENGTH with 512%nat. by rewrite Hmodel, Hdense.
  - intros w d s res Hjson Hd Hmodel Hdense.
    rewrite (embed_single_run_str w d s Hjson Hd). cbv zeta.
    change MAX_LENGTH with 512%nat. by rewrite Hmodel, Hdense.
Qed.

Lemma unusable_model_result_is_500_witness :
  fst (embed (world_of sparse_only_encode ∅ (texts_request (PList two_texts))))
    = Returns (Response (error_body "'dense_vecs'") 500) ∧
  fst (embed_single (world_of sparse_only_encode ∅ (text_request (PStr "hello"))))
    = Returns (Response (error_body "'dense_vecs'") 500).
Proof.
  split.
  - apply (proj1 unusable_model_result_is_500
             (world_of sparse_only_encode ∅ (texts_request (PList two_texts)))
             {[ "texts" := PList two_texts ]} two_texts 32 {[ "colbert_vecs" := [] ]});
      first [reflexivity | discriminate | (vm_compute; discriminate)].
  - apply (proj1 (proj2 unusable_model_result_is_500)
             (world_of sparse_only_encode ∅ (text_request (PStr "hello")))
             {[ "text" := PStr "hello" ]} "hello" {[ "colbert_vecs" := [] ]}); reflexivity.
Defined.

(** ** Startup *)

Lemma ascii_lower_is (a : ascii) (lower upper : ascii) :
  ascii_lower lower = lower → ascii_lower upper = lower →
  (∀ b, ascii_lower b = lower → b = lower ∨ b = upper) →
  ascii_lower a = lower ↔ a = lower ∨ a = upper.
Proof. intros Hl Hu Hall. split; [apply Hall | by intros [->| ->]]. Qed.

Lemma ascii_lower_letter (a : ascii) :
  (ascii_lower a = "t" ↔ a = "t" ∨ a = "T")%char ∧
  (ascii_lower a = "r" ↔ a = "r" ∨ a = "R")%char ∧
  (ascii_lower a = "u" ↔ a = "u" ∨ a = "U")%char ∧
  (ascii_lower a = "e" ↔ a = "e" ∨ a = "E")%char.
Proof.
  split_and!; (split; [|by intros [->| ->]]).
  all: destruct a as [[] [] [] [] [] [] [] []]; vm_compute; intros H;
    first [discriminate H | by left | by right].
Qed.

Lemma lower_spells_true (s : string) :
  String.eqb (str_lower s) "true" = true ↔ spells_true s.
Proof.
  rewrite String.eqb_eq. unfold spells_true. split.
  - destruct s as [|a [|b [|c [|d [|? ?]]]]]; try discriminate.
    simpl. intros [= Ha Hb Hc Hd]. exists a, b, c, d.
    split; [done|]. split_and!; by apply ascii_lower_letter.
  - intros (a & b & c & d & -> & Ha & Hb & Hc & Hd). simpl.
    apply ascii_lower_letter in Ha, Hb, Hc, Hd. by rewrite Ha, Hb, Hc, Hd.
Qed.

(** X15. Debug mode is on exactly when DEBUG is set to "true" in some
    mix of upper and lower case; any other value, and no value, leave it
    off. *)
Theorem debug_iff_spelled_true w args :
  fst (main w) = Returns args →
  (run_debug args = true ↔ ∃ s, os_environ w !! "DEBUG" = Some s ∧ spells_true s).
Proof.
  unfold main, py_lower. unfold_run.
  destruct (os_environ w !! "PORT") as [p|]; simpl;
    [destruct (builtin_int w p); simpl; [|done]|].
  all: destruct (os_environ w !! "DEBUG") as [s|]; simpl; intros [= <-]; simpl.
  all: first
    [ rewrite lower_spells_true; split;
      [intros H; by exists s | by intros (s' & [= <-] & H)]
    | split; [by vm_compute | by intros (s' & Hs & _)] ].
Qed.

Lemma debug_iff_spelled_true_witness :
  run_debug (RunArgs "0.0.0.0" 8080 true) = true
  ↔ ∃ s, os_environ (startup_world {[ "DEBUG" := "True" ]}) !! "DEBUG" = Some s ∧ spells_true s.
Proof. apply (debug_iff_spelled_true (startup_world {[ "DEBUG" := "True" ]})). reflexivity. Defined.



(** X17. When startup gets as far as [app.run], the port it passes is
    what [int] made of PORT, with no check of its range, or 8080 when
    PORT is unset; the host is always 0.0.0.0, and the port was logged
    first. *)
Theorem startup_port w args :
  fst (main w) = Returns args →
  match os_environ w !! "PORT" with
  | Some s => builtin_int w s = inl (run_port args)
  | None => run_port args = 8080
  end ∧
  run_host args = "0.0.0.0" ∧
  EvLog INFO ("Starting server on port " +:+ pretty (run_port args)) ∈ snd (main w).
Proof.
  unfold main, py_lower. unfold_run.
  destruct (os_environ w !! "PORT") as [p|] eqn:Hp; simpl;
    [destruct (builtin_int w p) as [z|refusal] eqn:Hint; simpl; [|done]|].
  all: destruct (os_environ w !! "DEBUG") as [s|]; simpl.
  all: intros [= <-]; simpl; split_and!; [done | done |].
  all: rewrite !elem_of_cons; auto.
Qed.

Lemma startup_port_witness :
  match os_environ (startup_world {[ "PORT" := "-1" ]}) !! "PORT" with
  | Some s => builtin_int (startup_world {[ "PORT" := "-1" ]}) s
              = inl (run_port (RunArgs "0.0.0.0" (-1) false))
  | None => run_port (RunArgs "0.0.0.0" (-1) false) = 8080
  end ∧
  run_host (RunArgs "0.0.0.0" (-1) false) = "0.0.0.0" ∧
  EvLog INFO ("Starting server on port " +:+ pretty (run_port (RunArgs "0.0.0.0" (-1) false)))
    ∈ snd (main (startup_world {[ "PORT" := "-1" ]})).
Proof.
  apply (startup_port (startup_world {[ "PORT" := "-1" ]}) (RunArgs "0.0.0.0" (-1) false)).
  reflexivity.
Defined.
